(** * Order service (Kubernetes/Order.py): model and verification

    The service keeps orders in a MongoDB collection and checks the owning
    user with an HTTP GET against a separate user service.  The five route
    handlers of [Order.py] are embedded below as computations over an
    explicit world: the collection, the remote user service together with
    the log of requests sent to it, the process environment and the
    generator of fresh [ObjectId]s.  Python exceptions are the [Raise]
    outcome of the computation. *)

From Stdlib Require Import ZArith Ascii String.
From Stdlib Require Import Floats.PrimFloat.
From stdpp Require Import gmap strings list pretty.

Local Open Scope string_scope.
Local Open Scope list_scope.

(** ** Data *)

(** A BSON [ObjectId] is a 12-byte value; it is kept as the number its bytes
    spell, most significant byte first. *)
Definition ObjectId := N.

Definition hex_digit (n : N) : ascii :=
  match n with
  | 0%N => "0" | 1%N => "1" | 2%N => "2" | 3%N => "3"
  | 4%N => "4" | 5%N => "5" | 6%N => "6" | 7%N => "7"
  | 8%N => "8" | 9%N => "9" | 10%N => "a" | 11%N => "b"
  | 12%N => "c" | 13%N => "d" | 14%N => "e" | _ => "f"
  end%char.

Fixpoint hex_digits (k : nat) (n : N) (acc : string) : string :=
  match k with
  | O => acc
  | S k' => hex_digits k' (N.shiftr n 4) (String (hex_digit (N.land n 15)) acc)
  end.

(** [str(ObjectId)]: the 24 lower-case hexadecimal digits of the value. *)
Definition ObjectId_str (oid : ObjectId) : string := hex_digits 24 oid "".

(** The value under ["_id"] of a document: the collection's native
    [ObjectId], or a plain string (what the handlers put there before they
    answer, and what a filter built from a path parameter carries). *)
Inductive key :=
| ObjectIdKey (oid : ObjectId)
| StrKey (s : string).

(** [str(order["_id"])] *)
Definition key_str (k : key) : string :=
  match k with
  | ObjectIdKey oid => ObjectId_str oid
  | StrKey s => s
  end.

(** Field values of an order: [str] and [float]. *)
Inductive value :=
| VStr (s : string)
| VFloat (f : float).

(** A document (a Python [dict]): its ["_id"] and its other fields. *)
Record document := Document { _id : key; fields : gmap string value }.

(** [class Order(BaseModel)] *)
Record Order := { user_id : string; product : string; amount : float }.

(** [class OrderUpdate(BaseModel)]; [None] is Python's [None]. *)
Record OrderUpdate := { upd_product : option string; upd_amount : option float }.

(** [order.dict()] *)
Definition Order_dict (o : Order) : gmap string value :=
  <["user_id" := VStr (user_id o)]>
    (<["product" := VStr (product o)]>
       (<["amount" := VFloat (amount o)]> ∅)).

(** [order_update.dict()]: every field of the model, [None] included. *)
Definition OrderUpdate_dict (u : OrderUpdate) : list (string * option value) :=
  [("product", VStr <$> upd_product u); ("amount", VFloat <$> upd_amount u)].

(** [{k: v for k, v in items if v is not None}] *)
Fixpoint not_None_items (items : list (string * option value)) : gmap string value :=
  match items with
  | [] => ∅
  | (k, Some v) :: rest => <[k := v]> (not_None_items rest)
  | (_, None) :: rest => not_None_items rest
  end.

(** A decoded JSON body, as [response.json()] gives it. *)
#[warnings="-register-all"]
Inductive json :=
| JNull
| JBool (b : bool)
| JNum (z : Z)
| JStr (s : string)
| JArr (items : list json)
| JObj (members : list (string * json)).

(** ** Exceptions *)

Inductive exn :=
| HTTPException (status_code : Z) (detail : string)
| PyError (class_name : string) (message : string).

(** [str(e)].  Starlette renders an [HTTPException] as
    ["{status_code}: {detail}"]; the other exceptions met here render as
    their message. *)
Definition str (e : exn) : string :=
  match e with
  | HTTPException c d => pretty c +:+ ": " +:+ d
  | PyError _ m => m
  end.

Inductive outcome (A : Type) :=
| Return (a : A)
| Raise (e : exn).
Arguments Return {A} a.
Arguments Raise {A} e.

(** ** The world the handlers run in *)

(** What one GET against the user service does. *)
Record Response := { status_code : Z; body : option json }.

Inductive reply :=
| Replied (r : Response)
| Unreachable (message : string).

Record World := {
  (** [db.orders], in insertion order *)
  orders_collection : list document;
  (** [Some m]: the MongoDB server cannot be reached, every collection
      call raises with message [m] *)
  storage_fault : option string;
  (** [os.getenv("USER_SERVICE_URL")] *)
  USER_SERVICE_URL : option string;
  (** the user service: what a GET of the given URL does *)
  user_service : string -> reply;
  (** the URLs [client.get] was called with so far, latest first; a call
      that raises is logged too, whether or not anything left the process *)
  requests : list string;
  (** the [ObjectId]s the driver generates, and how many were taken *)
  ObjectId_seq : nat -> ObjectId;
  ObjectId_next : nat
}.

Definition with_orders (docs : list document) (w : World) : World :=
  {| orders_collection := docs; storage_fault := storage_fault w;
     USER_SERVICE_URL := USER_SERVICE_URL w; user_service := user_service w;
     requests := requests w; ObjectId_seq := ObjectId_seq w;
     ObjectId_next := ObjectId_next w |}.

Definition with_request (url : string) (w : World) : World :=
  {| orders_collection := orders_collection w; storage_fault := storage_fault w;
     USER_SERVICE_URL := USER_SERVICE_URL w; user_service := user_service w;
     requests := url :: requests w; ObjectId_seq := ObjectId_seq w;
     ObjectId_next := ObjectId_next w |}.

Definition with_ObjectId_taken (w : World) : World :=
  {| orders_collection := orders_collection w; storage_fault := storage_fault w;
     USER_SERVICE_URL := USER_SERVICE_URL w; user_service := user_service w;
     requests := requests w; ObjectId_seq := ObjectId_seq w;
     ObjectId_next := S (ObjectId_next w) |}.

Definition with_user_service (us : string -> reply) (w : World) : World :=
  {| orders_collection := orders_collection w; storage_fault := storage_fault w;
     USER_SERVICE_URL := USER_SERVICE_URL w; user_service := us;
     requests := requests w; ObjectId_seq := ObjectId_seq w;
     ObjectId_next := ObjectId_next w |}.

(** ** Computations: state and exceptions *)

Definition M (A : Type) : Type := World -> outcome A * World.

#[global] Instance M_ret : MRet M := λ A a w, (Return a, w).

#[global] Instance M_bind : MBind M := λ A B f m w,
  match m w with
  | (Return a, w') => f a w'
  | (Raise e, w') => (Raise e, w')
  end.

Definition raise {A} (e : exn) : M A := λ w, (Raise e, w).

(** [try: body  except Exception as e: handler(e)] *)
Definition try_except {A} (body : M A) (handler : exn -> M A) : M A := λ w,
  match body w with
  | (Return a, w') => (Return a, w')
  | (Raise e, w') => handler e w'
  end.

Definition get_world : M World := λ w, (Return w, w).
Definition put_world (w' : World) : M unit := λ _, (Return tt, w').

(** ** The driver: [orders_collection.*] *)

(** Every call on the collection first needs the server. *)
Definition storage : M (list document) := λ w,
  match storage_fault w with
  | Some m => (Raise (PyError "ServerSelectionTimeoutError" m), w)
  | None => (Return (orders_collection w), w)
  end.

(** The filter [{"_id": order_id}] with [order_id : str]: a document
    matches when its ["_id"] is that very string.  An [ObjectId] is never
    equal to a string. *)
Definition matches (order_id : string) (d : document) : bool :=
  match _id d with
  | StrKey s => bool_decide (s = order_id)
  | ObjectIdKey _ => false
  end.

(** [orders_collection.find_one({"_id": order_id})]: the first match, or
    [None]. *)
Definition find_one (order_id : string) : M (option document) :=
  docs ← storage; mret (List.find (matches order_id) docs).

(** [orders_collection.find()], read to the end by [list(...)]. *)
Definition find_all : M (list document) := storage.

Definition has_id (k : key) (d : document) : bool :=
  match k, _id d with
  | ObjectIdKey a, ObjectIdKey b => bool_decide (a = b)
  | StrKey a, StrKey b => bool_decide (a = b)
  | _, _ => false
  end.

(** [ObjectId()] *)
Definition new_ObjectId : M ObjectId := λ w,
  (Return (ObjectId_seq w (ObjectId_next w)), with_ObjectId_taken w).

(** [orders_collection.insert_one(order_dict)] for a dict without ["_id"]:
    the driver puts a fresh [ObjectId] under ["_id"] of the caller's dict
    and sends it; the unique index on ["_id"] refuses a duplicate.  The
    result is [inserted_id] together with the dict as the driver left it. *)
Definition insert_one (order_dict : gmap string value) : M (ObjectId * document) :=
  oid ← new_ObjectId;
  docs ← storage;
  let doc := {| _id := ObjectIdKey oid; fields := order_dict |} in
  if existsb (has_id (ObjectIdKey oid)) docs
  then raise (PyError "DuplicateKeyError" ("E11000 duplicate key error: " +:+ ObjectId_str oid))
  else w ← get_world; put_world (with_orders (docs ++ [doc]) w);; mret (oid, doc).

(** [{"$set": update_dict}] on one document: the keys of [update_dict] are
    set, the others stay. *)
Definition set_fields (update_dict : gmap string value) (d : document) : document :=
  {| _id := _id d; fields := update_dict ∪ fields d |}.

Fixpoint update_first (order_id : string) (update_dict : gmap string value)
    (docs : list document) : list document * Z :=
  match docs with
  | [] => ([], 0%Z)
  | d :: rest =>
      if matches order_id d then (set_fields update_dict d :: rest, 1%Z)
      else let '(rest', n) := update_first order_id update_dict rest in (d :: rest', n)
  end.

(** [orders_collection.update_one({"_id": order_id}, {"$set": update_dict})];
    the result is [matched_count]. *)
Definition update_one (order_id : string) (update_dict : gmap string value) : M Z :=
  docs ← storage;
  let '(docs', matched_count) := update_first order_id update_dict docs in
  w ← get_world; put_world (with_orders docs' w);; mret matched_count.

Fixpoint delete_first (order_id : string) (docs : list document) : list document * Z :=
  match docs with
  | [] => ([], 0%Z)
  | d :: rest =>
      if matches order_id d then (rest, 1%Z)
      else let '(rest', n) := delete_first order_id rest in (d :: rest', n)
  end.

(** [orders_collection.delete_one({"_id": order_id})]; the result is
    [deleted_count]. *)
Definition delete_one (order_id : string) : M Z :=
  docs ← storage;
  let '(docs', deleted_count) := delete_first order_id docs in
  w ← get_world; put_world (with_orders docs' w);; mret deleted_count.

(** ** The HTTP client and the interpreter *)

(** An f-string field: [None] prints as ["None"]. *)
Definition fstr (o : option string) : string := default "None" o.

(** [f"{os.getenv('USER_SERVICE_URL')}/users/{uid}"] *)
Definition users_url (uid : string) : M string :=
  w ← get_world; mret (fstr (USER_SERVICE_URL w) +:+ "/users/" +:+ uid).

(** [await client.get(url)] inside [async with httpx.AsyncClient()]: the
    call is logged; it gives the response, or raises when none comes back
    (connection refused, timeout, or a URL the client refuses before it
    sends anything). *)
Definition client_get (url : string) : M Response := λ w,
  match user_service w url with
  | Replied r => (Return r, with_request url w)
  | Unreachable m => (Raise (PyError "ConnectError" m), with_request url w)
  end.

(** [response.json()] *)
Definition Response_json (r : Response) : M json :=
  match body r with
  | Some j => mret j
  | None => raise (PyError "JSONDecodeError" "Expecting value: line 1 column 1 (char 0)")
  end.

(** [d.name] for a [dict] [d] and a [name] that is no method of [dict]:
    attribute lookup does not read the keys, Python raises. *)
Definition dict_getattr (d : document) (name : string) : M string :=
  raise (PyError "AttributeError" ("'dict' object has no attribute '" +:+ name +:+ "'")).

(** [order["_id"] = str(order["_id"])] *)
Definition id_to_str (d : document) : document :=
  {| _id := StrKey (key_str (_id d)); fields := fields d |}.

(** [order["_id"] = ...] when [find_one] gave [None] *)
Definition subscript (o : option document) : M document :=
  match o with
  | Some d => mret d
  | None => raise (PyError "TypeError" "'NoneType' object is not subscriptable")
  end.

(** ** The routes *)

(** [except Exception as e: raise HTTPException(status_code=500, detail=str(e))] *)
Definition internal_error {A} (e : exn) : M A := raise (HTTPException 500 (str e)).

(** [POST /orders/]: the [try] block, then the route. *)
Definition create_order_try (order : Order) : M document :=
  url ← users_url (user_id order);
  response ← client_get url;
  if negb (status_code response =? 200)%Z
  then raise (HTTPException 404 "User not found")
  else
    let order_dict := Order_dict order in
    '(inserted_id, order_dict) ← insert_one order_dict;
    mret {| _id := StrKey (ObjectId_str inserted_id); fields := fields order_dict |}.

Definition create_order (order : Order) : M document :=
  try_except (create_order_try order) internal_error.

(** [GET /orders/{order_id}] *)
Definition get_order_try (order_id : string) : M (document * json) :=
  order ← find_one order_id;
  match order with
  | None => raise (HTTPException 404 "Order not found")
  | Some order =>
      uid ← dict_getattr order "user_id";
      url ← users_url uid;
      response ← client_get url;
      if negb (status_code response =? 200)%Z
      then raise (HTTPException 404 "User not found")
      else
        user ← Response_json response;
        mret (id_to_str order, user)
  end.

Definition get_order (order_id : string) : M (document * json) :=
  try_except (get_order_try order_id) internal_error.

(** [GET /orders/] *)
Definition list_orders_try : M (list document) :=
  orders ← find_all;
  mret (id_to_str <$> orders).

Definition list_orders : M (list document) :=
  try_except list_orders_try internal_error.

(** [PATCH /orders/{order_id}] *)
Definition update_order_try (order_id : string) (order_update : OrderUpdate) : M document :=
  let update_dict := not_None_items (OrderUpdate_dict order_update) in
  if bool_decide (update_dict = ∅)
  then raise (HTTPException 400 "No fields to update")
  else
    matched_count ← update_one order_id update_dict;
    if (matched_count =? 0)%Z
    then raise (HTTPException 404 "Order not found")
    else
      order ← find_one order_id;
      order ← subscript order;
      mret (id_to_str order).

Definition update_order (order_id : string) (order_update : OrderUpdate) : M document :=
  try_except (update_order_try order_id order_update) internal_error.

(** The body of the confirmation, [{"message": "Order deleted"}]. *)
Definition deleted_message : gmap string value := {[ "message" := VStr "Order deleted" ]}.

(** [DELETE /orders/{order_id}] *)
Definition delete_order_try (order_id : string) : M (gmap string value) :=
  deleted_count ← delete_one order_id;
  if (deleted_count =? 0)%Z
  then raise (HTTPException 404 "Order not found")
  else mret deleted_message.

Definition delete_order (order_id : string) : M (gmap string value) :=
  try_except (delete_order_try order_id) internal_error.

(** ** Requests and how they end *)

Inductive request :=
| POST_orders (order : Order)
| GET_order (order_id : string)
| GET_orders
| PATCH_order (order_id : string) (order_update : OrderUpdate)
| DELETE_order (order_id : string).

Definition raised {A} (r : outcome A * World) : option exn :=
  match r.1 with
  | Return _ => None
  | Raise e => Some e
  end.

(** The exception the [try] block of the request's handler ends with. *)
Definition try_failure (rq : request) (w : World) : option exn :=
  match rq with
  | POST_orders order => raised (create_order_try order w)
  | GET_order order_id => raised (get_order_try order_id w)
  | GET_orders => raised (list_orders_try w)
  | PATCH_order order_id u => raised (update_order_try order_id u w)
  | DELETE_order order_id => raised (delete_order_try order_id w)
  end.

(** The exception the handler itself ends with: what the caller sees. *)
Definition failure (rq : request) (w : World) : option exn :=
  match rq with
  | POST_orders order => raised (create_order order w)
  | GET_order order_id => raised (get_order order_id w)
  | GET_orders => raised (list_orders w)
  | PATCH_order order_id u => raised (update_order order_id u w)
  | DELETE_order order_id => raised (delete_order order_id w)
  end.

(** The request [create_order] sends for an order. *)
Definition check_url (order : Order) (w : World) : string :=
  fstr (USER_SERVICE_URL w) +:+ "/users/" +:+ user_id order.

(** ** Sample worlds *)

(** A user service that knows ["u1"] only. *)
Definition sample_service (url : string) : reply :=
  if bool_decide (url = "http://users:8001/users/u1")
  then Replied {| status_code := 200; body := Some (JObj [("name", JStr "Ann")]) |}
  else Replied {| status_code := 404; body := Some (JObj [("detail", JStr "User not found")]) |}.

Definition sample_world (docs : list document) (us : string -> reply) : World :=
  {| orders_collection := docs; storage_fault := None;
     USER_SERVICE_URL := Some "http://users:8001"; user_service := us;
     requests := []; ObjectId_seq := λ n, N.of_nat (42 + n); ObjectId_next := 0 |}.

Definition widget : Order := {| user_id := "u1"; product := "widget"; amount := 12.5%float |}.
Definition gadget : Order := {| user_id := "u9"; product := "gadget"; amount := 3%float |}.

(** The document [create_order widget] stores in an empty collection. *)
Definition stored_widget : document :=
  {| _id := ObjectIdKey 42%N; fields := Order_dict widget |}.

(** A document whose ["_id"] is a string, as another writer may store it. *)
Definition legacy_order : document :=
  {| _id := StrKey "A-17"; fields := Order_dict widget |}.

(** A user service that cannot be reached. *)
Definition down_service (url : string) : reply :=
  Unreachable "All connection attempts failed".

(** The id [create_order widget] answers with in the sample world. *)
Definition widget_id : string := "00000000000000000000002a".

(** The patch [{"amount": 9.5}]. *)
Definition amount_only : OrderUpdate := {| upd_product := None; upd_amount := Some 9.5%float |}.

(** ** The remaining route, and what a request leaves behind *)

(** [GET /health]: no [try], no collection call, no request. *)
Definition health_check : M (gmap string value) :=
  mret {[ "status" := VStr "healthy" ]}.

(** The world after the handler of a request has run. *)
Definition world_after (rq : request) (w : World) : World :=
  match rq with
  | POST_orders order => (create_order order w).2
  | GET_order order_id => (get_order order_id w).2
  | GET_orders => (list_orders w).2
  | PATCH_order order_id u => (update_order order_id u w).2
  | DELETE_order order_id => (delete_order order_id w).2
  end.

(** The world after a sequence of requests, handled one after the other. *)
Definition run_requests (rqs : list request) (w : World) : World :=
  foldl (λ w rq, world_after rq w) w rqs.

(** The ["_id"]s of the collection, in order. *)
Definition keys (w : World) : list key := _id <$> orders_collection w.

(** The sample world with the MongoDB server out of reach. *)
Definition server_down (w : World) : World :=
  {| orders_collection := orders_collection w;
     storage_fault := Some "localhost:27017: [Errno 111] Connection refused";
     USER_SERVICE_URL := USER_SERVICE_URL w; user_service := user_service w;
     requests := requests w; ObjectId_seq := ObjectId_seq w;
     ObjectId_next := ObjectId_next w |}.

(** The patch [{"product": "gizmo"}]. *)
Definition product_only : OrderUpdate :=
  {| upd_product := Some "gizmo"; upd_amount := None |}.

(** * Verification *)

(** Unfolds the sequencing of a computation so that it can be run on a
    world step by step. *)
Ltac run :=
  unfold try_except, internal_error, raise, get_world, put_world;
  unfold mbind, M_bind, mret, M_ret.

(** ** The blanket [except] clause *)

Section Flattening.
Context {A : Type}.
Implicit Types (body : M A) (w : World).

Lemma try_except_Return body w a w' :
  body w = (Return a, w') → try_except body internal_error w = (Return a, w').
Proof. intros H. unfold try_except. by rewrite H. Qed.

Lemma try_except_Raise body w e w' :
  body w = (Raise e, w') →
  try_except body internal_error w = (Raise (HTTPException 500 (str e)), w').
Proof. intros H. unfold try_except. by rewrite H. Qed.

Lemma raised_try_except body w :
  raised (try_except body internal_error w)
  = (λ e, HTTPException 500 (str e)) <$> raised (body w).
Proof.
  unfold raised, try_except.
  destruct (body w) as [[a|e] w']; reflexivity.
Qed.
End Flattening.

Lemma failure_try_failure rq w :
  failure rq w = (λ e, HTTPException 500 (str e)) <$> try_failure rq w.
Proof. destruct rq; apply raised_try_except. Qed.

(** ** The driver *)

Lemma storage_up w :
  storage_fault w = None → storage w = (Return (orders_collection w), w).
Proof. intros H. unfold storage. by rewrite H. Qed.

Lemma storage_down w m :
  storage_fault w = Some m →
  storage w = (Raise (PyError "ServerSelectionTimeoutError" m), w).
Proof. intros H. unfold storage. by rewrite H. Qed.

Lemma with_orders_same w : with_orders (orders_collection w) w = w.
Proof. by destruct w. Qed.

Lemma matches_set_fields order_id ud d :
  matches order_id (set_fields ud d) = matches order_id d.
Proof. reflexivity. Qed.

(** A matched document is the first of its kind: the collection splits
    around it, and [update_first] rewrites that one place only. *)
Lemma find_split order_id docs d :
  List.find (matches order_id) docs = Some d →
  ∃ l1 l2, docs = l1 ++ d :: l2
           ∧ Forall (λ x, matches order_id x = false) l1
           ∧ matches order_id d = true.
Proof.
  induction docs as [|x docs IH]; simpl; [done|].
  destruct (matches order_id x) eqn:Hx.
  - intros [= ->]. exists [], docs. by repeat split.
  - intros (l1 & l2 & -> & Hl1 & Hd)%IH.
    exists (x :: l1), l2. repeat split; [|done]. by constructor.
Qed.

Lemma update_first_split order_id ud l1 d l2 :
  Forall (λ x, matches order_id x = false) l1 →
  matches order_id d = true →
  update_first order_id ud (l1 ++ d :: l2) = (l1 ++ set_fields ud d :: l2, 1%Z).
Proof.
  intros Hl1 Hd. induction Hl1 as [|x l1 Hx _ IH]; simpl.
  - by rewrite Hd.
  - by rewrite Hx, IH.
Qed.

Lemma find_after_split order_id l1 d l2 :
  Forall (λ x, matches order_id x = false) l1 →
  matches order_id d = true →
  List.find (matches order_id) (l1 ++ d :: l2) = Some d.
Proof.
  intros Hl1 Hd. induction Hl1 as [|x l1 Hx _ IH]; simpl.
  - by rewrite Hd.
  - by rewrite Hx.
Qed.

Lemma update_first_no_match order_id ud docs :
  List.find (matches order_id) docs = None →
  update_first order_id ud docs = (docs, 0%Z).
Proof.
  induction docs as [|x docs IH]; simpl; [done|].
  destruct (matches order_id x); [done|]. intros H. by rewrite IH.
Qed.

Lemma delete_first_no_match order_id docs :
  List.find (matches order_id) docs = None →
  delete_first order_id docs = (docs, 0%Z).
Proof.
  induction docs as [|x docs IH]; simpl; [done|].
  destruct (matches order_id x); [done|]. intros H. by rewrite IH.
Qed.

Lemma delete_first_split order_id l1 d l2 :
  Forall (λ x, matches order_id x = false) l1 →
  matches order_id d = true →
  delete_first order_id (l1 ++ d :: l2) = (l1 ++ l2, 1%Z).
Proof.
  intros Hl1 Hd. induction Hl1 as [|x l1 Hx _ IH]; simpl.
  - by rewrite Hd.
  - by rewrite Hx, IH.
Qed.

(** No string filter ever matches a document keyed by an [ObjectId]. *)
Lemma matches_ObjectIdKey order_id oid f :
  matches order_id {| _id := ObjectIdKey oid; fields := f |} = false.
Proof. reflexivity. Qed.

(** ** Every failure leaves as a 500 *)

(** C9.  Whenever one of the five handlers (create, get, list, update,
    delete) fails, the exception the caller sees is an [HTTPException] with
    status 500 whose detail is [str(e0)], [e0] being the exception the
    handler's [try] block ended with, an [HTTPException] raised inside the
    block included.  No 404 and no 400 ever reaches the caller. *)
Theorem every_failure_is_500 (rq : request) (w : World) (e : exn) :
  failure rq w = Some e →
  (∃ e0, try_failure rq w = Some e0 ∧ e = HTTPException 500 (str e0))
  ∧ (∀ detail, e ≠ HTTPException 404 detail)
  ∧ (∀ detail, e ≠ HTTPException 400 detail).
Proof.
  rewrite failure_try_failure.
  destruct (try_failure rq w) as [e0|]; simpl; [|done].
  intros [= <-]. split; [by exists e0|]. split; intros d [=].
Qed.

(** A delete that matches nothing is such a failure. *)
Lemma every_failure_is_500_witness :
  failure (DELETE_order "A-18") (sample_world [legacy_order] sample_service)
  = Some (HTTPException 500 "404: Order not found")
  ∧ (∃ e0, try_failure (DELETE_order "A-18") (sample_world [legacy_order] sample_service)
           = Some e0
           ∧ HTTPException 500 "404: Order not found" = HTTPException 500 (str e0)).
Proof.
  split; [reflexivity|].
  apply (every_failure_is_500 (DELETE_order "A-18")
           (sample_world [legacy_order] sample_service)
           (HTTPException 500 "404: Order not found")).
  reflexivity.
Defined.

(** ** Get *)

(** C10.  [get_order] never returns: for every [order_id] and every world
    it raises an [HTTPException] with status 500 and leaves the world as it
    found it (nothing is sent to the user service).  When no document
    matches the string id, the flattened exception is the handler's own
    404; when one matches, it is the [AttributeError] of [order.user_id] on
    a dict; when the server is down, it is the driver's error. *)
Theorem get_order_never_succeeds (order_id : string) (w : World) :
  ∃ e0, get_order order_id w = (Raise (HTTPException 500 (str e0)), w)
        ∧ match storage_fault w with
          | Some m => e0 = PyError "ServerSelectionTimeoutError" m
          | None =>
              match List.find (matches order_id) (orders_collection w) with
              | None => e0 = HTTPException 404 "Order not found"
              | Some _ =>
                  e0 = PyError "AttributeError" "'dict' object has no attribute 'user_id'"
              end
          end.
Proof.
  unfold get_order, get_order_try, find_one, dict_getattr, storage. run.
  destruct (storage_fault w) as [m|]; [by eexists|].
  destruct (List.find (matches order_id) (orders_collection w)); by eexists.
Qed.

(** ** Create *)

(** C3.  When the user service cannot be reached (the GET raises a
    transport error), [create_order] fails with status 500, the detail
    being the transport error's text, and the collection is as before. *)
Theorem create_order_unreachable (order : Order) (w : World) (m : string) :
  user_service w (check_url order w) = Unreachable m →
  ∃ w', create_order order w = (Raise (HTTPException 500 m), w')
        ∧ orders_collection w' = orders_collection w.
Proof.
  intros H. unfold create_order, create_order_try, users_url, client_get. run.
  fold (check_url order w). rewrite H. by eexists.
Qed.

(** The sample order against a user service that is down. *)
Lemma create_order_unreachable_witness :
  ∃ w', create_order widget (sample_world [legacy_order] down_service)
        = (Raise (HTTPException 500 "All connection attempts failed"), w')
        ∧ orders_collection w' = [legacy_order].
Proof.
  apply (create_order_unreachable widget (sample_world [legacy_order] down_service)
           "All connection attempts failed").
  reflexivity.
Defined.

(** ** List *)

(** C7.  [list_orders] sends nothing to the user service: the world it
    leaves is the world it found (the request log included), its result is
    given by the collection alone, and replacing the user service by any
    other changes neither the result nor the request log. *)
Theorem list_orders_never_checks_users (w : World) (us : string -> reply) :
  list_orders w
  = (match storage_fault w with
     | Some m => Raise (HTTPException 500 m)
     | None => Return (id_to_str <$> orders_collection w)
     end, w)
  ∧ (list_orders (with_user_service us w)).1 = (list_orders w).1
  ∧ requests (list_orders (with_user_service us w)).2 = requests w.
Proof.
  unfold list_orders, list_orders_try, find_all, storage. run. simpl.
  destruct (storage_fault w); done.
Qed.

(** ** Update *)

(** [update_dict] holds exactly the fields of the patch that are not
    [None]. *)
Lemma update_dict_product u :
  not_None_items (OrderUpdate_dict u) !! "product" = VStr <$> upd_product u.
Proof. destruct u as [[p|] [a|]]; reflexivity. Qed.

Lemma update_dict_amount u :
  not_None_items (OrderUpdate_dict u) !! "amount" = VFloat <$> upd_amount u.
Proof. destruct u as [[p|] [a|]]; reflexivity. Qed.

Lemma update_dict_other u k :
  k ≠ "product" → k ≠ "amount" → not_None_items (OrderUpdate_dict u) !! k = None.
Proof.
  intros Hp Ha. destruct u as [[p|] [a|]]; simpl;
    repeat (rewrite lookup_insert_ne by done); apply lookup_empty.
Qed.

Lemma update_dict_empty u :
  not_None_items (OrderUpdate_dict u) = ∅ ↔ upd_product u = None ∧ upd_amount u = None.
Proof.
  split.
  - intros H. split.
    + pose proof (update_dict_product u) as Hp. rewrite H, lookup_empty in Hp.
      by destruct (upd_product u).
    + pose proof (update_dict_amount u) as Ha. rewrite H, lookup_empty in Ha.
      by destruct (upd_amount u).
  - destruct u as [p a]; simpl. by intros [-> ->].
Qed.

Lemma matches_id order_id d : matches order_id d = true → _id d = StrKey order_id.
Proof.
  unfold matches. destruct (_id d) as [oid|s]; [done|].
  by intros ->%bool_decide_eq_true.
Qed.

(** Merge-patch on a document the string filter reaches (its ["_id"] is
    the string [order_id]; no document stored by [create_order] is such a
    document).  When the server is up, the first document matched by
    [order_id] is [d] and the patch carries a field that is not [None],
    [update_order] returns the merged record: a field is the patch's value
    where the patch gives one, and the value [d] had otherwise (nothing is
    cleared).  In the collection the matched document keeps its ["_id"] and
    gets the same merged fields; every other document, and the rest of the
    world, is as before. *)
Theorem update_order_merge_patch (order_id : string) (u : OrderUpdate)
    (w : World) (d : document) :
  storage_fault w = None →
  List.find (matches order_id) (orders_collection w) = Some d →
  upd_product u ≠ None ∨ upd_amount u ≠ None →
  ∃ merged l1 l2,
    orders_collection w = l1 ++ d :: l2
    ∧ update_order order_id u w
      = (Return {| _id := StrKey order_id; fields := merged |},
         with_orders (l1 ++ {| _id := _id d; fields := merged |} :: l2) w)
    ∧ merged !! "product" = match upd_product u with
                            | Some p => Some (VStr p)
                            | None => fields d !! "product"
                            end
    ∧ merged !! "amount" = match upd_amount u with
                           | Some a => Some (VFloat a)
                           | None => fields d !! "amount"
                           end
    ∧ ∀ k, k ≠ "product" → k ≠ "amount" → merged !! k = fields d !! k.
Proof.
  intros Hup Hfind Hsome.
  destruct (find_split _ _ _ Hfind) as (l1 & l2 & Hdocs & Hl1 & Hd).
  set (ud := not_None_items (OrderUpdate_dict u)).
  exists (ud ∪ fields d), l1, l2. split; [done|]. split.
  - unfold update_order, update_order_try, update_one, find_one, subscript.
    fold ud. rewrite bool_decide_eq_false_2; last first.
    { unfold ud. rewrite update_dict_empty. intros [??]. by destruct Hsome. }
    unfold storage. run. simpl. rewrite Hup, Hdocs.
    rewrite (update_first_split _ ud _ _ _ Hl1 Hd). simpl. rewrite Hup.
    rewrite (find_after_split order_id l1 (set_fields ud d) l2 Hl1 Hd).
    unfold id_to_str, set_fields. simpl. by rewrite (matches_id _ _ Hd).
  - repeat split.
    + rewrite lookup_union. unfold ud. rewrite update_dict_product.
      destruct (upd_product u); simpl; [by destruct (fields d !! "product")|].
      by rewrite (left_id None _).
    + rewrite lookup_union. unfold ud. rewrite update_dict_amount.
      destruct (upd_amount u); simpl; [by destruct (fields d !! "amount")|].
      by rewrite (left_id None _).
    + intros k Hp Ha. rewrite lookup_union. unfold ud.
      rewrite update_dict_other by done. by rewrite (left_id None _).
Qed.

(** The patch [{"amount": 9.5}] on the string-keyed sample document, which
    is second in the collection. *)
Lemma update_order_merge_patch_witness :
  ∃ merged l1 l2,
    [stored_widget; legacy_order] = l1 ++ legacy_order :: l2
    ∧ update_order "A-17" amount_only
        (sample_world [stored_widget; legacy_order] sample_service)
      = (Return {| _id := StrKey "A-17"; fields := merged |},
         with_orders (l1 ++ {| _id := StrKey "A-17"; fields := merged |} :: l2)
           (sample_world [stored_widget; legacy_order] sample_service))
    ∧ merged !! "product" = Some (VStr "widget")
    ∧ merged !! "amount" = Some (VFloat 9.5%float)
    ∧ ∀ k, k ≠ "product" → k ≠ "amount" → merged !! k = Order_dict widget !! k.
Proof.
  apply (update_order_merge_patch "A-17" amount_only
           (sample_world [stored_widget; legacy_order] sample_service) legacy_order).
  - reflexivity.
  - reflexivity.
  - right. discriminate.
Defined.

(** ** Where the handlers part from the service's contract *)

(** C2.  When the user service answers the existence check with a status
    other than 200, the [try] block of [create_order] raises the 404 "User
    not found", nothing is inserted, and the handler's [except] clause turns
    the 404 into a 500: the caller sees status 500 with the rendered 404 as
    detail. *)
Theorem create_order_unknown_user (order : Order) (w : World) (r : Response) :
  user_service w (check_url order w) = Replied r →
  status_code r ≠ 200%Z →
  create_order_try order w
  = (Raise (HTTPException 404 "User not found"), with_request (check_url order w) w)
  ∧ create_order order w
    = (Raise (HTTPException 500 (str (HTTPException 404 "User not found"))),
       with_request (check_url order w) w)
  ∧ orders_collection (create_order order w).2 = orders_collection w.
Proof.
  intros H Hr.
  assert (create_order_try order w
          = (Raise (HTTPException 404 "User not found"),
             with_request (check_url order w) w)) as Htry.
  { unfold create_order_try, users_url, client_get. run.
    fold (check_url order w). rewrite H.
    by apply Z.eqb_neq in Hr as ->. }
  split; [done|]. unfold create_order.
  rewrite (try_except_Raise _ _ _ _ Htry). done.
Qed.

(** An order of user ["u9"], whom the sample service does not know. *)
Lemma create_order_unknown_user_witness :
  create_order_try gadget (sample_world [legacy_order] sample_service)
  = (Raise (HTTPException 404 "User not found"),
     with_request "http://users:8001/users/u9" (sample_world [legacy_order] sample_service))
  ∧ create_order gadget (sample_world [legacy_order] sample_service)
    = (Raise (HTTPException 500 "404: User not found"),
       with_request "http://users:8001/users/u9" (sample_world [legacy_order] sample_service))
  ∧ orders_collection (create_order gadget (sample_world [legacy_order] sample_service)).2
    = [legacy_order].
Proof.
  apply (create_order_unknown_user gadget (sample_world [legacy_order] sample_service)
           {| status_code := 404; body := Some (JObj [("detail", JStr "User not found")]) |}).
  - reflexivity.
  - discriminate.
Defined.

(** C5.  A patch with no field that is not [None] is refused before the
    collection is touched: the [try] block raises the 400 "No fields to
    update" and the world is unchanged.  The handler's [except] clause
    turns the 400 into a 500. *)
Theorem update_order_empty_patch (order_id : string) (w : World) :
  update_order_try order_id {| upd_product := None; upd_amount := None |} w
  = (Raise (HTTPException 400 "No fields to update"), w)
  ∧ update_order order_id {| upd_product := None; upd_amount := None |} w
    = (Raise (HTTPException 500 (str (HTTPException 400 "No fields to update"))), w).
Proof. split; reflexivity. Qed.

(** C1.  Create then get, in a world whose user service knows the order's
    user: [create_order] stores the order under a fresh [ObjectId] and
    answers with that id as a string; [get_order] with that very string
    finds no document (the filter compares a string with an [ObjectId]) and
    fails with status 500. *)
Theorem create_then_get_fails :
  let w := sample_world [] sample_service in
  let w1 := (create_order widget w).2 in
  (create_order widget w).1
  = Return {| _id := StrKey widget_id; fields := Order_dict widget |}
  ∧ orders_collection w1 = [stored_widget]
  ∧ get_order widget_id w1
    = (Raise (HTTPException 500 (str (HTTPException 404 "Order not found"))), w1).
Proof. vm_compute. repeat split; reflexivity. Qed.

(** C4.  Delete twice.  For an order stored by [create_order] the first
    delete with the id the service handed out already fails with status
    500, the order staying in the collection.  For a document keyed by a
    string the first delete succeeds and the second fails with status 500,
    not 404. *)
Theorem delete_twice :
  let w1 := (create_order widget (sample_world [] sample_service)).2 in
  let v := sample_world [legacy_order] sample_service in
  let v1 := (delete_order "A-17" v).2 in
  delete_order widget_id w1
  = (Raise (HTTPException 500 (str (HTTPException 404 "Order not found"))), w1)
  ∧ orders_collection w1 = [stored_widget]
  ∧ delete_order "A-17" v = (Return deleted_message, with_orders [] v)
  ∧ delete_order "A-17" v1
    = (Raise (HTTPException 500 (str (HTTPException 404 "Order not found"))), v1).
Proof. vm_compute. repeat split; reflexivity. Qed.

(** C8.  The failures the handlers detect themselves (user not found,
    order not found, no fields to update) are raised inside the [try]
    blocks with status 404 or 400, and each of them reaches the caller with
    status 500. *)
Theorem domain_failures_are_flattened :
  let w := sample_world [stored_widget] sample_service in
  let empty_patch := {| upd_product := None; upd_amount := None |} in
  let flattened e := Some (HTTPException 500 (str e)) in
  (try_failure (POST_orders gadget) w = Some (HTTPException 404 "User not found")
   ∧ failure (POST_orders gadget) w = flattened (HTTPException 404 "User not found"))
  ∧ (try_failure (PATCH_order widget_id empty_patch) w
     = Some (HTTPException 400 "No fields to update")
     ∧ failure (PATCH_order widget_id empty_patch) w
       = flattened (HTTPException 400 "No fields to update"))
  ∧ (try_failure (PATCH_order widget_id amount_only) w
     = Some (HTTPException 404 "Order not found")
     ∧ failure (PATCH_order widget_id amount_only) w
       = flattened (HTTPException 404 "Order not found"))
  ∧ (try_failure (DELETE_order widget_id) w = Some (HTTPException 404 "Order not found")
     ∧ failure (DELETE_order widget_id) w
       = flattened (HTTPException 404 "Order not found")).
Proof. vm_compute. repeat split; reflexivity. Qed.

(** ** What create and delete do in general *)

(** When the server is up, the user service answers the existence check
    with 200 and the [ObjectId] the driver generates is not yet a key of
    the collection, [create_order] appends the order under that [ObjectId]
    and answers with the same fields and the id as a 24-digit string; one
    request went to the user service. *)
Theorem create_order_stores (order : Order) (w : World) (r : Response) :
  storage_fault w = None →
  user_service w (check_url order w) = Replied r →
  status_code r = 200%Z →
  existsb (has_id (ObjectIdKey (ObjectId_seq w (ObjectId_next w)))) (orders_collection w)
  = false →
  ∃ w', create_order order w
        = (Return {| _id := StrKey (ObjectId_str (ObjectId_seq w (ObjectId_next w)));
                     fields := Order_dict order |}, w')
        ∧ orders_collection w'
          = orders_collection w
            ++ [{| _id := ObjectIdKey (ObjectId_seq w (ObjectId_next w));
                   fields := Order_dict order |}]
        ∧ requests w' = check_url order w :: requests w.
Proof.
  intros Hup Hget Hr Hfresh.
  unfold create_order, create_order_try, users_url, client_get, insert_one,
    new_ObjectId, storage.
  run. fold (check_url order w). rewrite Hget, Hr. simpl.
  rewrite Hup, Hfresh. by eexists.
Qed.

(** The sample order, created next to a document that is already there. *)
Lemma create_order_stores_witness :
  ∃ w', create_order widget (sample_world [legacy_order] sample_service)
        = (Return {| _id := StrKey widget_id; fields := Order_dict widget |}, w')
        ∧ orders_collection w' = [legacy_order; stored_widget]
        ∧ requests w' = ["http://users:8001/users/u1"].
Proof.
  apply (create_order_stores widget (sample_world [legacy_order] sample_service)
           {| status_code := 200; body := Some (JObj [("name", JStr "Ann")]) |});
    reflexivity.
Defined.

Lemma find_ObjectId_keyed order_id docs :
  Forall (λ d, ∃ oid, _id d = ObjectIdKey oid) docs →
  List.find (matches order_id) docs = None.
Proof.
  induction 1 as [|d docs [oid Hd] _ IH]; simpl; [done|].
  unfold matches at 1. by rewrite Hd.
Qed.

(** In a collection whose documents are all keyed by an [ObjectId] (every
    document [create_order] stores is), no [order_id] string reaches a
    document: [delete_order] and [update_order] with a patch that is not
    empty fail with status 500, the detail being the rendered 404, and
    leave the world as it was. *)
Theorem stored_orders_out_of_reach (order_id : string) (u : OrderUpdate) (w : World) :
  storage_fault w = None →
  Forall (λ d, ∃ oid, _id d = ObjectIdKey oid) (orders_collection w) →
  upd_product u ≠ None ∨ upd_amount u ≠ None →
  delete_order order_id w
  = (Raise (HTTPException 500 (str (HTTPException 404 "Order not found"))), w)
  ∧ update_order order_id u w
    = (Raise (HTTPException 500 (str (HTTPException 404 "Order not found"))), w).
Proof.
  intros Hup Hkeys Hsome.
  pose proof (find_ObjectId_keyed order_id _ Hkeys) as Hfind.
  split.
  - unfold delete_order, delete_order_try, delete_one, storage. run.
    rewrite Hup, (delete_first_no_match _ _ Hfind). simpl.
    by rewrite with_orders_same.
  - unfold update_order, update_order_try, update_one, storage.
    rewrite bool_decide_eq_false_2; last first.
    { rewrite update_dict_empty. intros [??]. by destruct Hsome. }
    run. rewrite Hup, (update_first_no_match _ _ _ Hfind). simpl.
    by rewrite with_orders_same.
Qed.

(** The order [create_order] stored, addressed by the id it handed out. *)
Lemma stored_orders_out_of_reach_witness :
  delete_order widget_id (sample_world [stored_widget] sample_service)
  = (Raise (HTTPException 500 "404: Order not found"),
     sample_world [stored_widget] sample_service)
  ∧ update_order widget_id amount_only (sample_world [stored_widget] sample_service)
    = (Raise (HTTPException 500 "404: Order not found"),
       sample_world [stored_widget] sample_service).
Proof.
  apply (stored_orders_out_of_reach widget_id amount_only
           (sample_world [stored_widget] sample_service)).
  - reflexivity.
  - repeat constructor. by exists 42%N.
  - right. discriminate.
Defined.

(** ** The handlers, run *)

(** The equations below give each handler's outcome and final world by
    cases on what the world holds; the properties that follow are read off
    them. *)

Lemma with_orders_with_orders docs docs' w :
  with_orders docs (with_orders docs' w) = with_orders docs w.
Proof. reflexivity. Qed.

Lemma update_dict_not_empty u :
  upd_product u ≠ None ∨ upd_amount u ≠ None →
  bool_decide (not_None_items (OrderUpdate_dict u) = ∅) = false.
Proof.
  intros Hsome. apply bool_decide_eq_false_2.
  rewrite update_dict_empty. intros [??]. by destruct Hsome.
Qed.

Lemma create_order_run order w :
  create_order order w
  = match user_service w (check_url order w) with
    | Unreachable m =>
        (Raise (HTTPException 500 m), with_request (check_url order w) w)
    | Replied r =>
        if (status_code r =? 200)%Z then
          let oid := ObjectId_seq w (ObjectId_next w) in
          let w1 := with_ObjectId_taken (with_request (check_url order w) w) in
          match storage_fault w with
          | Some m => (Raise (HTTPException 500 m), w1)
          | None =>
              if existsb (has_id (ObjectIdKey oid)) (orders_collection w)
              then (Raise (HTTPException 500
                             ("E11000 duplicate key error: " +:+ ObjectId_str oid)), w1)
              else (Return {| _id := StrKey (ObjectId_str oid);
                              fields := Order_dict order |},
                    with_orders (orders_collection w
                                 ++ [{| _id := ObjectIdKey oid;
                                        fields := Order_dict order |}]) w1)
          end
        else (Raise (HTTPException 500 (str (HTTPException 404 "User not found"))),
              with_request (check_url order w) w)
    end.
Proof.
  unfold create_order, create_order_try, users_url, client_get, insert_one,
    new_ObjectId, storage.
  run. fold (check_url order w).
  destruct (user_service w (check_url order w)) as [r|m]; [|done].
  destruct (status_code r =? 200)%Z; simpl; [|done].
  destruct (storage_fault w); [done|].
  by destruct (existsb _ (orders_collection w)).
Qed.

Lemma get_order_world order_id w : (get_order order_id w).2 = w.
Proof.
  unfold get_order, get_order_try, find_one, dict_getattr, storage. run.
  destruct (storage_fault w); [done|].
  by destruct (List.find (matches order_id) (orders_collection w)).
Qed.

Lemma list_orders_world w : (list_orders w).2 = w.
Proof.
  unfold list_orders, list_orders_try, find_all, storage. run.
  by destruct (storage_fault w).
Qed.

Lemma update_order_run order_id u w :
  update_order order_id u w
  = let ud := not_None_items (OrderUpdate_dict u) in
    if bool_decide (ud = ∅)
    then (Raise (HTTPException 500 (str (HTTPException 400 "No fields to update"))), w)
    else match storage_fault w with
         | Some m => (Raise (HTTPException 500 m), w)
         | None =>
             match List.find (matches order_id) (orders_collection w) with
             | None =>
                 (Raise (HTTPException 500 (str (HTTPException 404 "Order not found"))), w)
             | Some d =>
                 (Return {| _id := StrKey order_id; fields := ud ∪ fields d |},
                  with_orders (update_first order_id ud (orders_collection w)).1 w)
             end
         end.
Proof.
  unfold update_order, update_order_try, update_one, find_one, subscript, storage.
  cbv zeta. set (ud := not_None_items (OrderUpdate_dict u)). run.
  destruct (bool_decide (ud = ∅)); [done|].
  destruct (storage_fault w) eqn:Hup; [done|].
  destruct (List.find (matches order_id) (orders_collection w)) as [d|] eqn:Hfind.
  - destruct (find_split _ _ _ Hfind) as (l1 & l2 & Hdocs & Hl1 & Hd).
    rewrite Hdocs, (update_first_split _ ud _ _ _ Hl1 Hd). simpl. rewrite Hup.
    rewrite (find_after_split order_id l1 (set_fields ud d) l2 Hl1 Hd).
    unfold id_to_str, set_fields. simpl. by rewrite (matches_id _ _ Hd).
  - rewrite (update_first_no_match _ _ _ Hfind). simpl.
    by rewrite with_orders_same.
Qed.

Lemma delete_order_run order_id w :
  delete_order order_id w
  = match storage_fault w with
    | Some m => (Raise (HTTPException 500 m), w)
    | None =>
        match List.find (matches order_id) (orders_collection w) with
        | None =>
            (Raise (HTTPException 500 (str (HTTPException 404 "Order not found"))), w)
        | Some d =>
            (Return deleted_message,
             with_orders (delete_first order_id (orders_collection w)).1 w)
        end
    end.
Proof.
  unfold delete_order, delete_order_try, delete_one, storage. run.
  destruct (storage_fault w) eqn:Hup; [done|].
  destruct (List.find (matches order_id) (orders_collection w)) as [d|] eqn:Hfind.
  - destruct (find_split _ _ _ Hfind) as (l1 & l2 & Hdocs & Hl1 & Hd).
    by rewrite Hdocs, (delete_first_split _ _ _ _ Hl1 Hd).
  - rewrite (delete_first_no_match _ _ Hfind). simpl.
    by rewrite with_orders_same.
Qed.

Lemma update_first_ids order_id ud docs :
  _id <$> (update_first order_id ud docs).1 = _id <$> docs.
Proof.
  induction docs as [|d docs IH]; simpl; [done|].
  destruct (matches order_id d); [done|].
  destruct (update_first order_id ud docs) as [docs' n]. simpl in *.
  by f_equal.
Qed.

Lemma has_id_eq k d : has_id k d = true ↔ _id d = k.
Proof.
  unfold has_id. destruct k as [a|a], (_id d) as [b|b];
    rewrite ?bool_decide_eq_true; naive_solver.
Qed.

Lemma existsb_has_id k docs :
  existsb (has_id k) docs = false ↔ k ∉ _id <$> docs.
Proof.
  induction docs as [|d docs IH]; simpl.
  - split; [intros _; apply not_elem_of_nil|done].
  - rewrite not_elem_of_cons, <- IH, orb_false_iff.
    assert (has_id k d = false ↔ k ≠ _id d) as ->; [|done].
    rewrite <- not_true_iff_false, has_id_eq.
    split; intros H ?; by apply H.
Qed.

Lemma set_fields_twice ud1 ud2 d :
  set_fields ud2 (set_fields ud1 d) = set_fields (ud2 ∪ ud1) d.
Proof. unfold set_fields. simpl. by rewrite (assoc_L (∪)). Qed.

Lemma update_first_keeps order_id ud docs d :
  d ∈ docs → matches order_id d = false → d ∈ (update_first order_id ud docs).1.
Proof.
  intros Hin Hd. induction docs as [|x docs IH]; simpl; [done|].
  apply elem_of_cons in Hin as [->|Hin].
  - rewrite Hd. destruct (update_first order_id ud docs).
    apply elem_of_cons. by left.
  - destruct (matches order_id x).
    + apply elem_of_cons. by right.
    + specialize (IH Hin). destruct (update_first order_id ud docs).
      apply elem_of_cons. by right.
Qed.

(** ** When the server is down *)

(** While the MongoDB server is out of reach every order request fails
    with status 500 and the collection is as before; [health_check] still
    answers "healthy", it looks at nothing. *)
Theorem server_down_every_request_fails (rq : request) (w : World) (m : string) :
  storage_fault w = Some m →
  (∃ detail, failure rq w = Some (HTTPException 500 detail))
  ∧ orders_collection (world_after rq w) = orders_collection w
  ∧ health_check w = (Return {[ "status" := VStr "healthy" ]}, w).
Proof.
  intros Hdown. split; [|split; [|done]].
  - destruct rq as [order|order_id| |order_id u|order_id]; unfold failure, raised.
    + rewrite create_order_run.
      destruct (user_service w (check_url order w)) as [r|?]; [|by eexists].
      destruct (status_code r =? 200)%Z; [|by eexists].
      cbv zeta. rewrite Hdown. by eexists.
    + unfold get_order, get_order_try, find_one, storage. run.
      rewrite Hdown. by eexists.
    + unfold list_orders, list_orders_try, find_all, storage. run.
      rewrite Hdown. by eexists.
    + rewrite update_order_run. cbv zeta.
      destruct (bool_decide _); [by eexists|]. rewrite Hdown. by eexists.
    + rewrite delete_order_run, Hdown. by eexists.
  - destruct rq as [order|order_id| |order_id u|order_id]; unfold world_after.
    + rewrite create_order_run.
      destruct (user_service w (check_url order w)) as [r|?]; [|done].
      destruct (status_code r =? 200)%Z; [|done].
      cbv zeta. by rewrite Hdown.
    + by rewrite get_order_world.
    + by rewrite list_orders_world.
    + rewrite update_order_run. cbv zeta.
      destruct (bool_decide _); [done|]. by rewrite Hdown.
    + by rewrite delete_order_run, Hdown.
Qed.

(** Listing while the server is down. *)
Lemma server_down_every_request_fails_witness :
  (∃ detail,
     failure GET_orders (server_down (sample_world [stored_widget] sample_service))
     = Some (HTTPException 500 detail))
  ∧ orders_collection
      (world_after GET_orders (server_down (sample_world [stored_widget] sample_service)))
    = [stored_widget]
  ∧ health_check (server_down (sample_world [stored_widget] sample_service))
    = (Return {[ "status" := VStr "healthy" ]},
       server_down (sample_world [stored_widget] sample_service)).
Proof.
  apply (server_down_every_request_fails GET_orders
           (server_down (sample_world [stored_widget] sample_service))
           "localhost:27017: [Errno 111] Connection refused").
  reflexivity.
Defined.

(** ** The existence check gates the insert *)

(** [create_order] either fails and leaves the collection as it was, or it
    returns normally, and then the user service had answered the existence
    check with 200, the collection has grown at its end by exactly the
    order's fields under an [ObjectId] that was no key before, and the
    answer carries the same fields with that id as a string. *)
Theorem create_order_gate (order : Order) (w : World) :
  (∃ e, (create_order order w).1 = Raise e
        ∧ orders_collection (create_order order w).2 = orders_collection w)
  ∨ (∃ r oid,
       user_service w (check_url order w) = Replied r
       ∧ status_code r = 200%Z
       ∧ (ObjectIdKey oid ∉ keys w)
       ∧ (create_order order w).1
         = Return {| _id := StrKey (ObjectId_str oid); fields := Order_dict order |}
       ∧ orders_collection (create_order order w).2
         = orders_collection w
           ++ [{| _id := ObjectIdKey oid; fields := Order_dict order |}]).
Proof.
  rewrite create_order_run.
  destruct (user_service w (check_url order w)) as [r|m] eqn:Hget;
    [|left; by eexists].
  destruct (status_code r =? 200)%Z eqn:Hr; [|left; by eexists].
  cbv zeta. destruct (storage_fault w); [left; by eexists|].
  destruct (existsb _ (orders_collection w)) eqn:Hfresh; [left; by eexists|].
  right. exists r, (ObjectId_seq w (ObjectId_next w)).
  apply Z.eqb_eq in Hr. apply existsb_has_id in Hfresh. done.
Qed.

(** ** Who calls the user service *)

(** [create_order] calls [client.get] exactly once, with the URL built from
    [USER_SERVICE_URL] and the order's [user_id], whatever the outcome of
    the call and of the handler: there is no second attempt.  The other
    four handlers never call it. *)
Theorem requests_after (rq : request) (w : World) :
  requests (world_after rq w)
  = match rq with
    | POST_orders order => check_url order w :: requests w
    | _ => requests w
    end.
Proof.
  destruct rq as [order|order_id| |order_id u|order_id]; unfold world_after.
  - rewrite create_order_run.
    destruct (user_service w (check_url order w)) as [r|?]; [|done].
    destruct (status_code r =? 200)%Z; [|done].
    cbv zeta. destruct (storage_fault w); [done|].
    by destruct (existsb _ (orders_collection w)).
  - by rewrite get_order_world.
  - by rewrite list_orders_world.
  - rewrite update_order_run. cbv zeta.
    destruct (bool_decide _); [done|]. destruct (storage_fault w); [done|].
    by destruct (List.find _ (orders_collection w)).
  - rewrite delete_order_run. destruct (storage_fault w); [done|].
    by destruct (List.find _ (orders_collection w)).
Qed.

(** ** Create, then list *)

(** After a [create_order] that returned a record, [list_orders] returns
    what it would have returned before, followed by that very record. *)
Theorem create_then_list (order : Order) (w : World) (record : document) :
  (create_order order w).1 = Return record →
  (list_orders (create_order order w).2).1
  = Return ((id_to_str <$> orders_collection w) ++ [record]).
Proof.
  rewrite create_order_run.
  destruct (user_service w (check_url order w)) as [r|m]; [|done].
  destruct (status_code r =? 200)%Z; [|done].
  cbv zeta. destruct (storage_fault w) eqn:Hup; [done|].
  destruct (existsb _ (orders_collection w)); [done|].
  simpl. intros [= <-].
  unfold list_orders, list_orders_try, find_all, storage. run. simpl.
  rewrite Hup. simpl. by rewrite fmap_app.
Qed.

(** The sample order, created next to a string-keyed document, then
    listed. *)
Lemma create_then_list_witness :
  (list_orders (create_order widget (sample_world [legacy_order] sample_service)).2).1
  = Return ((id_to_str <$> [legacy_order])
            ++ [{| _id := StrKey widget_id; fields := Order_dict widget |}]).
Proof.
  apply (create_then_list widget (sample_world [legacy_order] sample_service)).
  reflexivity.
Defined.

(** ** Update, in general *)

(** Sending the same patch a second time changes nothing: the second
    [update_order] gives the outcome of the first and leaves the world the
    first one left, whether the first succeeded or failed. *)
Theorem update_order_idempotent (order_id : string) (u : OrderUpdate) (w : World) :
  update_order order_id u (update_order order_id u w).2 = update_order order_id u w.
Proof.
  rewrite (update_order_run order_id u w). cbv zeta.
  set (ud := not_None_items (OrderUpdate_dict u)).
  destruct (bool_decide (ud = ∅)) eqn:He; simpl.
  { rewrite update_order_run. cbv zeta. fold ud. by rewrite He. }
  destruct (storage_fault w) eqn:Hup; simpl.
  { rewrite update_order_run. cbv zeta. fold ud. by rewrite He, Hup. }
  destruct (List.find (matches order_id) (orders_collection w)) as [d|] eqn:Hfind;
    simpl; rewrite update_order_run; cbv zeta; fold ud; rewrite He; simpl;
    rewrite Hup.
  - destruct (find_split _ _ _ Hfind) as (l1 & l2 & Hdocs & Hl1 & Hd).
    rewrite Hdocs, (update_first_split _ ud _ _ _ Hl1 Hd). simpl.
    rewrite (find_after_split order_id l1 (set_fields ud d) l2 Hl1 Hd).
    rewrite (update_first_split _ ud l1 (set_fields ud d) l2 Hl1 Hd). simpl.
    rewrite set_fields_twice, (idemp_L (∪)).
    unfold set_fields at 1. simpl. by rewrite (assoc_L (∪)), (idemp_L (∪)).
  - by rewrite Hfind.
Qed.

(** [update_order] never adds, removes or re-keys a document, and never
    touches a document its filter does not match: after any update the
    ["_id"]s of the collection are the same, in the same order, and every
    document that did not match [order_id] is still there as it was. *)
Theorem update_order_frame (order_id : string) (u : OrderUpdate) (w : World) :
  keys (update_order order_id u w).2 = keys w
  ∧ ∀ d, d ∈ orders_collection w → matches order_id d = false →
         d ∈ orders_collection (update_order order_id u w).2.
Proof.
  rewrite update_order_run. cbv zeta.
  destruct (bool_decide _); [done|].
  destruct (storage_fault w); [done|].
  destruct (List.find _ (orders_collection w)); [|done]. simpl. split.
  - unfold keys. simpl. apply update_first_ids.
  - intros d' Hin Hd'. by apply update_first_keeps.
Qed.

(** Two patches in a row on a matched document add up: the second answer
    carries the second patch's fields, then the first patch's, then the
    document's own. *)
Theorem update_order_twice (order_id : string) (u1 u2 : OrderUpdate)
    (w : World) (d : document) :
  storage_fault w = None →
  List.find (matches order_id) (orders_collection w) = Some d →
  upd_product u1 ≠ None ∨ upd_amount u1 ≠ None →
  upd_product u2 ≠ None ∨ upd_amount u2 ≠ None →
  (update_order order_id u2 (update_order order_id u1 w).2).1
  = Return {| _id := StrKey order_id;
              fields := not_None_items (OrderUpdate_dict u2)
                        ∪ (not_None_items (OrderUpdate_dict u1) ∪ fields d) |}.
Proof.
  intros Hup Hfind H1 H2.
  destruct (find_split _ _ _ Hfind) as (l1 & l2 & Hdocs & Hl1 & Hd).
  rewrite (update_order_run order_id u1 w). cbv zeta.
  rewrite (update_dict_not_empty _ H1), Hup, Hfind. simpl.
  rewrite update_order_run. cbv zeta.
  rewrite (update_dict_not_empty _ H2). simpl. rewrite Hup.
  rewrite Hdocs, (update_first_split _ _ _ _ _ Hl1 Hd). simpl.
  by rewrite (find_after_split order_id l1 (set_fields _ d) l2 Hl1 Hd).
Qed.

(** Amount first, product second, on the string-keyed sample document. *)
Lemma update_order_twice_witness :
  (update_order "A-17" product_only
     (update_order "A-17" amount_only
        (sample_world [stored_widget; legacy_order] sample_service)).2).1
  = Return {| _id := StrKey "A-17";
              fields := not_None_items (OrderUpdate_dict product_only)
                        ∪ (not_None_items (OrderUpdate_dict amount_only)
                           ∪ Order_dict widget) |}.
Proof.
  apply (update_order_twice "A-17" amount_only product_only
           (sample_world [stored_widget; legacy_order] sample_service) legacy_order).
  - reflexivity.
  - reflexivity.
  - right. discriminate.
  - left. discriminate.
Defined.

(** ** An id that matches nothing *)

(** When the server is up and no document matches [order_id],
    [delete_order] and [update_order] with a patch that is not empty raise
    status 500 with the rendered 404 "Order not found" as detail, and the
    world is untouched. *)
Theorem missing_order_changes_nothing (order_id : string) (u : OrderUpdate) (w : World) :
  storage_fault w = None →
  List.find (matches order_id) (orders_collection w) = None →
  upd_product u ≠ None ∨ upd_amount u ≠ None →
  delete_order order_id w
  = (Raise (HTTPException 500 (str (HTTPException 404 "Order not found"))), w)
  ∧ update_order order_id u w
    = (Raise (HTTPException 500 (str (HTTPException 404 "Order not found"))), w).
Proof.
  intros Hup Hfind Hsome. split.
  - by rewrite delete_order_run, Hup, Hfind.
  - rewrite update_order_run. cbv zeta.
    by rewrite (update_dict_not_empty _ Hsome), Hup, Hfind.
Qed.

(** An id no document carries, next to a string-keyed document. *)
Lemma missing_order_changes_nothing_witness :
  delete_order "A-18" (sample_world [legacy_order] sample_service)
  = (Raise (HTTPException 500 "404: Order not found"),
     sample_world [legacy_order] sample_service)
  ∧ update_order "A-18" amount_only (sample_world [legacy_order] sample_service)
    = (Raise (HTTPException 500 "404: Order not found"),
       sample_world [legacy_order] sample_service).
Proof.
  apply (missing_order_changes_nothing "A-18" amount_only
           (sample_world [legacy_order] sample_service)).
  - reflexivity.
  - reflexivity.
  - right. discriminate.
Defined.

(** ** Delete, in general *)

Lemma delete_first_keys order_id docs :
  (_id <$> (delete_first order_id docs).1) `sublist_of` (_id <$> docs).
Proof.
  induction docs as [|d docs IH]; simpl; [done|].
  destruct (matches order_id d); simpl.
  - by apply sublist_cons.
  - destruct (delete_first order_id docs) as [docs' n]. simpl in *.
    by apply sublist_skip.
Qed.

Lemma find_no_match order_id docs :
  Forall (λ x, matches order_id x = false) docs →
  List.find (matches order_id) docs = None.
Proof.
  induction 1 as [|x docs Hx _ IH]; simpl; [done|]. by rewrite Hx.
Qed.

(** With pairwise different ["_id"]s, the documents after the first match
    do not match. *)
Lemma no_second_match order_id l1 d l2 :
  NoDup (_id <$> (l1 ++ d :: l2)) →
  matches order_id d = true →
  Forall (λ x, matches order_id x = false) l2.
Proof.
  rewrite fmap_app, fmap_cons, NoDup_app, NoDup_cons.
  intros (_ & _ & Hd & _) Hmatch. apply Forall_forall. intros x Hx.
  destruct (matches order_id x) eqn:Hmx; [|done].
  exfalso. apply Hd. apply matches_id in Hmatch, Hmx.
  rewrite Hmatch, <- Hmx. by apply list_elem_of_fmap_2.
Qed.

(** When the server is up and [d] is the first document matching
    [order_id], [delete_order] answers with the confirmation and takes
    exactly that document out: what stood before it and after it stays, in
    order, and nothing else in the world changes. *)
Theorem delete_order_removes (order_id : string) (w : World) (d : document) :
  storage_fault w = None →
  List.find (matches order_id) (orders_collection w) = Some d →
  ∃ l1 l2,
    orders_collection w = l1 ++ d :: l2
    ∧ Forall (λ x, matches order_id x = false) l1
    ∧ delete_order order_id w = (Return deleted_message, with_orders (l1 ++ l2) w).
Proof.
  intros Hup Hfind.
  destruct (find_split _ _ _ Hfind) as (l1 & l2 & Hdocs & Hl1 & Hd).
  exists l1, l2. split; [done|]. split; [done|].
  rewrite delete_order_run, Hup, Hfind.
  by rewrite Hdocs, (delete_first_split _ _ _ _ Hl1 Hd).
Qed.

(** The string-keyed sample document, second of three. *)
Lemma delete_order_removes_witness :
  ∃ l1 l2,
    [stored_widget; legacy_order; stored_widget] = l1 ++ legacy_order :: l2
    ∧ Forall (λ x, matches "A-17" x = false) l1
    ∧ delete_order "A-17"
        (sample_world [stored_widget; legacy_order; stored_widget] sample_service)
      = (Return deleted_message,
         with_orders (l1 ++ l2)
           (sample_world [stored_widget; legacy_order; stored_widget] sample_service)).
Proof.
  apply (delete_order_removes "A-17"
           (sample_world [stored_widget; legacy_order; stored_widget] sample_service)
           legacy_order); reflexivity.
Defined.

(** In a collection whose ["_id"]s are pairwise different, a delete that
    succeeded cannot be repeated: the same [delete_order] again raises
    status 500 with the rendered 404 "Order not found" as detail, and
    changes nothing. *)
Theorem delete_order_twice (order_id : string) (w : World) :
  NoDup (keys w) →
  (delete_order order_id w).1 = Return deleted_message →
  delete_order order_id (delete_order order_id w).2
  = (Raise (HTTPException 500 (str (HTTPException 404 "Order not found"))),
     (delete_order order_id w).2).
Proof.
  intros Hkeys. rewrite (delete_order_run order_id w).
  destruct (storage_fault w) eqn:Hup; [done|].
  destruct (List.find (matches order_id) (orders_collection w)) as [d|] eqn:Hfind;
    [|done].
  intros _. simpl.
  destruct (find_split _ _ _ Hfind) as (l1 & l2 & Hdocs & Hl1 & Hd).
  unfold keys in Hkeys. rewrite Hdocs in Hkeys |- *.
  rewrite (delete_first_split _ _ _ _ Hl1 Hd). simpl.
  rewrite delete_order_run. simpl. rewrite Hup.
  rewrite find_no_match; [done|].
  apply Forall_app. split; [done|]. by eapply no_second_match.
Qed.

(** The string-keyed sample document, deleted twice. *)
Lemma delete_order_twice_witness :
  delete_order "A-17"
    (delete_order "A-17" (sample_world [stored_widget; legacy_order] sample_service)).2
  = (Raise (HTTPException 500 "404: Order not found"),
     (delete_order "A-17" (sample_world [stored_widget; legacy_order] sample_service)).2).
Proof.
  apply (delete_order_twice "A-17"
           (sample_world [stored_widget; legacy_order] sample_service)).
  - apply NoDup_cons. split; [|apply NoDup_singleton].
    rewrite list_elem_of_singleton. discriminate.
  - reflexivity.
Defined.

(** ** Unique ids *)

(** No request breaks the uniqueness of ["_id"] in the collection: if the
    ["_id"]s are pairwise different before a handler runs, they are after
    it, whatever the handler and its outcome. *)
Theorem unique_keys_preserved (rq : request) (w : World) :
  NoDup (keys w) → NoDup (keys (world_after rq w)).
Proof.
  intros Hkeys.
  destruct rq as [order|order_id| |order_id u|order_id]; unfold world_after.
  - rewrite create_order_run.
    destruct (user_service w (check_url order w)) as [r|?]; [|done].
    destruct (status_code r =? 200)%Z; [|done].
    cbv zeta. destruct (storage_fault w); [done|].
    destruct (existsb _ (orders_collection w)) eqn:Hfresh; [done|].
    apply existsb_has_id in Hfresh.
    unfold keys. simpl. rewrite fmap_app. apply NoDup_app.
    split; [done|]. split; [|apply NoDup_singleton].
    intros k Hk ->%list_elem_of_singleton. done.
  - by rewrite get_order_world.
  - by rewrite list_orders_world.
  - rewrite update_order_run. cbv zeta.
    destruct (bool_decide _); [done|]. destruct (storage_fault w); [done|].
    destruct (List.find _ (orders_collection w)); [|done].
    unfold keys. simpl. by rewrite update_first_ids.
  - rewrite delete_order_run. destruct (storage_fault w); [done|].
    destruct (List.find _ (orders_collection w)); [|done].
    unfold keys. simpl. eapply sublist_NoDup; [exact Hkeys|].
    apply delete_first_keys.
Qed.

(** Creating the sample order next to a string-keyed document. *)
Lemma unique_keys_preserved_witness :
  NoDup (keys (world_after (POST_orders widget)
                 (sample_world [legacy_order] sample_service))).
Proof.
  apply (unique_keys_preserved (POST_orders widget)
           (sample_world [legacy_order] sample_service)).
  apply NoDup_singleton.
Defined.

(** ** What an update cannot do *)

Lemma update_first_owner order_id ud docs :
  ud !! "user_id" = None →
  Forall2 (λ d d', _id d' = _id d ∧ fields d' !! "user_id" = fields d !! "user_id")
    docs (update_first order_id ud docs).1.
Proof.
  intros Hud. induction docs as [|d docs IH]; simpl; [constructor|].
  destruct (matches order_id d).
  - constructor.
    + split; [done|]. simpl. rewrite lookup_union, Hud. apply (left_id None _).
    + apply Forall2_same_length_lookup. split; [done|]. by intros i x y -> [= ->].
  - destruct (update_first order_id ud docs) as [docs' n]. by constructor.
Qed.

(** No update re-keys or re-owns an order: after any [update_order] the
    collection has, place by place, the ["_id"] and the ["user_id"] it had
    before. *)
Theorem update_order_keeps_owner (order_id : string) (u : OrderUpdate) (w : World) :
  Forall2 (λ d d', _id d' = _id d ∧ fields d' !! "user_id" = fields d !! "user_id")
    (orders_collection w) (orders_collection (update_order order_id u w).2).
Proof.
  assert (Forall2 (λ d d', _id d' = _id d
                           ∧ fields d' !! "user_id" = fields d !! "user_id")
            (orders_collection w) (orders_collection w)) as Hsame.
  { apply Forall2_same_length_lookup. split; [done|]. by intros i x y -> [= ->]. }
  rewrite update_order_run. cbv zeta.
  destruct (bool_decide _); [done|]. destruct (storage_fault w); [done|].
  destruct (List.find _ (orders_collection w)); [|done]. simpl.
  apply update_first_owner. by apply update_dict_other.
Qed.

(** ** Create is not idempotent *)

(** The same order posted twice is stored twice: when the server is up,
    the user service answers the check with 200 and the two [ObjectId]s the
    driver generates are different and no keys yet, the collection ends
    with two documents carrying the order's fields under those two
    [ObjectId]s, and two requests went to the user service. *)
Theorem create_order_twice (order : Order) (w : World) (r : Response) :
  storage_fault w = None →
  user_service w (check_url order w) = Replied r →
  status_code r = 200%Z →
  ObjectId_seq w (ObjectId_next w) ≠ ObjectId_seq w (S (ObjectId_next w)) →
  ObjectIdKey (ObjectId_seq w (ObjectId_next w)) ∉ keys w →
  ObjectIdKey (ObjectId_seq w (S (ObjectId_next w))) ∉ keys w →
  orders_collection (create_order order (create_order order w).2).2
  = orders_collection w
    ++ [{| _id := ObjectIdKey (ObjectId_seq w (ObjectId_next w));
           fields := Order_dict order |};
        {| _id := ObjectIdKey (ObjectId_seq w (S (ObjectId_next w)));
           fields := Order_dict order |}]
  ∧ requests (create_order order (create_order order w).2).2
    = [check_url order w; check_url order w] ++ requests w.
Proof.
  intros Hup Hget Hr Hne Hfresh1 Hfresh2.
  apply existsb_has_id in Hfresh1. apply existsb_has_id in Hfresh2.
  set (doc1 := {| _id := ObjectIdKey (ObjectId_seq w (ObjectId_next w));
                  fields := Order_dict order |}).
  set (doc2 := {| _id := ObjectIdKey (ObjectId_seq w (S (ObjectId_next w)));
                  fields := Order_dict order |}).
  set (w1 := with_orders (orders_collection w ++ [doc1])
               (with_ObjectId_taken (with_request (check_url order w) w))).
  assert ((create_order order w).2 = w1) as ->.
  { rewrite create_order_run, Hget, Hr. simpl. by rewrite Hup, Hfresh1. }
  assert ((create_order order w1).2
          = with_orders ((orders_collection w ++ [doc1]) ++ [doc2])
              (with_ObjectId_taken (with_request (check_url order w) w1))) as ->.
  { rewrite create_order_run.
    change (check_url order w1) with (check_url order w).
    change (user_service w1) with (user_service w).
    rewrite Hget, Hr. simpl. rewrite Hup, existsb_app, Hfresh2. simpl.
    by rewrite bool_decide_eq_false_2 by congruence. }
  simpl. by rewrite <- (assoc_L (++)).
Qed.

(** The sample order, posted twice into an empty collection. *)
Lemma create_order_twice_witness :
  orders_collection
    (create_order widget (create_order widget (sample_world [] sample_service)).2).2
  = [] ++ [stored_widget; {| _id := ObjectIdKey 43%N; fields := Order_dict widget |}]
  ∧ requests
      (create_order widget (create_order widget (sample_world [] sample_service)).2).2
    = ["http://users:8001/users/u1"; "http://users:8001/users/u1"] ++ [].
Proof.
  apply (create_order_twice widget (sample_world [] sample_service)
           {| status_code := 200; body := Some (JObj [("name", JStr "Ann")]) |}).
  - reflexivity.
  - reflexivity.
  - reflexivity.
  - discriminate.
  - apply not_elem_of_nil.
  - apply not_elem_of_nil.
Defined.

(** ** Orders the service stores are never patched *)

(** C6.  An order stored by [create_order] is not reached by
    [update_order]: in the sample world, after [create_order] has stored
    the order and handed out its id, [update_order] with that id and the
    patch [{"amount": 9.5}] raises status 500 with the rendered 404 "Order
    not found" as detail, and the stored order still has the amount it was
    created with. *)
Theorem create_then_patch_fails :
  let w1 := (create_order widget (sample_world [] sample_service)).2 in
  (create_order widget (sample_world [] sample_service)).1
  = Return {| _id := StrKey widget_id; fields := Order_dict widget |}
  ∧ update_order widget_id amount_only w1
    = (Raise (HTTPException 500 (str (HTTPException 404 "Order not found"))), w1)
  ∧ orders_collection w1 = [stored_widget]
  ∧ fields stored_widget !! "amount" = Some (VFloat 12.5%float).
Proof. vm_compute. repeat split; reflexivity. Qed.

Lemma ObjectId_keyed_after rq w :
  Forall (λ d, ∃ oid, _id d = ObjectIdKey oid) (orders_collection w) →
  orders_collection (world_after rq w) = orders_collection w
  ∨ ∃ d oid, _id d = ObjectIdKey oid
             ∧ orders_collection (world_after rq w) = orders_collection w ++ [d].
Proof.
  intros Hkeys.
  destruct rq as [order|order_id| |order_id u|order_id]; unfold world_after.
  - rewrite create_order_run.
    destruct (user_service w (check_url order w)) as [r|?]; [|by left].
    destruct (status_code r =? 200)%Z; [|by left].
    cbv zeta. destruct (storage_fault w); [by left|].
    destruct (existsb _ (orders_collection w)); [by left|].
    right. exists {| _id := ObjectIdKey (ObjectId_seq w (ObjectId_next w));
                     fields := Order_dict order |}, (ObjectId_seq w (ObjectId_next w)).
    by split.
  - left. by rewrite get_order_world.
  - left. by rewrite list_orders_world.
  - left. rewrite update_order_run. cbv zeta.
    destruct (bool_decide _); [done|]. destruct (storage_fault w); [done|].
    by rewrite (find_ObjectId_keyed order_id _ Hkeys).
  - left. rewrite delete_order_run. destruct (storage_fault w); [done|].
    by rewrite (find_ObjectId_keyed order_id _ Hkeys).
Qed.

Lemma ObjectId_keyed_run rqs w :
  Forall (λ d, ∃ oid, _id d = ObjectIdKey oid) (orders_collection w) →
  Forall (λ d, ∃ oid, _id d = ObjectIdKey oid)
    (orders_collection (run_requests rqs w)).
Proof.
  revert w. induction rqs as [|rq rqs IH]; intros w Hkeys; [done|].
  simpl. apply IH.
  destruct (ObjectId_keyed_after rq w Hkeys) as [->|(d & oid & Hd & ->)]; [done|].
  apply Forall_app. split; [done|]. apply Forall_singleton. by exists oid.
Qed.

(** Starting from an empty collection, whatever requests the service has
    handled since, no [update_order] and no [delete_order] ever succeeds:
    each raises status 500 and leaves the collection as it is.  What
    [create_order] stores is never patched and never removed. *)
Theorem service_built_orders_out_of_reach (rqs : list request) (w : World)
    (order_id : string) (u : OrderUpdate) :
  let w' := run_requests rqs (with_orders [] w) in
  (∃ detail, (update_order order_id u w').1 = Raise (HTTPException 500 detail))
  ∧ orders_collection (update_order order_id u w').2 = orders_collection w'
  ∧ (∃ detail, (delete_order order_id w').1 = Raise (HTTPException 500 detail))
  ∧ orders_collection (delete_order order_id w').2 = orders_collection w'.
Proof.
  intros w'.
  assert (List.find (matches order_id) (orders_collection w') = None) as Hfind.
  { apply find_ObjectId_keyed, ObjectId_keyed_run. simpl. constructor. }
  rewrite update_order_run, delete_order_run. cbv zeta. rewrite Hfind.
  destruct (bool_decide _); destruct (storage_fault w');
    repeat split; by eexists.
Qed.
